(** * autotranslate/services.py: a shallow embedding of the three translator
    services (GoSlate, Google API, Yandex Cloud API) and their properties. *)

From Stdlib Require Import String Ascii List ZArith Arith Lia Bool.
Import ListNotations.
Open Scope Z_scope.
Set Warnings "-register-all".

(** ** Python values

    The values the services receive and the JSON documents they parse.
    A dict is an association list; a Python dict has distinct keys, so the
    first binding is the one a lookup finds.  [PGen] is a one-shot iterable
    that cannot be indexed (a generator). *)
Inductive pyval : Type :=
| PNone
| PBool (b : bool)
| PInt (z : Z)
| PStr (s : string)
| PList (xs : list pyval)
| PTuple (xs : list pyval)
| PDict (kvs : list (string * pyval))
| PGen (xs : list pyval).

(** Exceptions raised by the code (and by the client libraries it calls). *)
Inductive exc : Type :=
| AssertionError (msg : string)
| TypeError
| AttributeError
| KeyError (key : string)
| IndexError
| ValueError (msg : string)
| Exception (msg : string)
| RecursionError
| ClientError (msg : string).

Inductive result (A : Type) : Type :=
| Ok (a : A)
| Err (e : exc).
Arguments Ok {A} a.
Arguments Err {A} e.

(** ** A state and exception monad

    A Python method mutates its object and may raise; mutations made before
    the exception stay.  So the state is returned on both paths. *)
Definition M (W A : Type) : Type := W -> result A * W.

Definition ret {W A} (a : A) : M W A := fun w => (Ok a, w).
Definition raise {W A} (e : exc) : M W A := fun w => (Err e, w).
Definition lift {W A} (r : result A) : M W A := fun w => (r, w).
Definition gets {W A} (f : W -> A) : M W A := fun w => (Ok (f w), w).
Definition modify {W} (f : W -> W) : M W unit := fun w => (Ok tt, f w).
Definition bind {W A B} (c : M W A) (k : A -> M W B) : M W B :=
  fun w => match c w with
           | (Ok a, w') => k a w'
           | (Err e, w') => (Err e, w')
           end.

Notation "x <- c ;; k" := (bind c (fun x => k))
  (at level 61, c at next level, right associativity).

Definition py_assert {W} (b : bool) (msg : string) : M W unit :=
  if b then ret tt else raise (AssertionError msg).

(** ** Python built-ins used by the services *)

Fixpoint assoc {A} (k : string) (kvs : list (string * A)) : option A :=
  match kvs with
  | [] => None
  | (k', v) :: r => if String.eqb k k' then Some v else assoc k r
  end.

(** [d.get(k, default)]: only dicts have [.get]. *)
Definition dict_get (d : pyval) (k : string) (default : pyval) : result pyval :=
  match d with
  | PDict kvs => Ok (match assoc k kvs with Some v => v | None => default end)
  | _ => Err AttributeError
  end.

(** [d[k]] with a string key: a dict looks the key up; a list, tuple or str
    refuses a string index; other values are not subscriptable. *)
Definition getitem (d : pyval) (k : string) : result pyval :=
  match d with
  | PDict kvs => match assoc k kvs with
                 | Some v => Ok v
                 | None => Err (KeyError k)
                 end
  | _ => Err TypeError
  end.

(** [for x in v]: the items an iteration over [v] yields. *)
Definition py_iter (v : pyval) : result (list pyval) :=
  match v with
  | PList xs | PTuple xs | PGen xs => Ok xs
  | PStr s => Ok (map (fun c => PStr (String c EmptyString)) (list_ascii_of_string s))
  | PDict kvs => Ok (map (fun kv => PStr (fst kv)) kvs)
  | _ => Err TypeError
  end.

(** A list comprehension whose element expression may raise. *)
Fixpoint map_result {A B} (f : A -> result B) (xs : list A) : result (list B) :=
  match xs with
  | [] => Ok []
  | x :: r => match f x with
              | Err e => Err e
              | Ok y => match map_result f r with
                        | Err e => Err e
                        | Ok ys => Ok (y :: ys)
                        end
              end
  end.

(** [isinstance(v, collections.abc.MutableSequence)] *)
Definition is_mutable_sequence (v : pyval) : bool :=
  match v with PList _ => true | _ => false end.

(** The type test of [collections.Iterable]: whether [v] can be iterated. *)
Definition is_iterable (v : pyval) : bool :=
  match v with
  | PList _ | PTuple _ | PStr _ | PDict _ | PGen _ => true
  | _ => false
  end.

(** [isinstance(v, six.string_types)] (Python 3: [str]) *)
Definition is_str (v : pyval) : bool :=
  match v with PStr _ => true | _ => false end.

(** Truthiness of a value. *)
Definition py_truthy (v : pyval) : bool :=
  match v with
  | PNone => false
  | PBool b => b
  | PInt z => negb (Z.eqb z 0)
  | PStr s => negb (String.eqb s EmptyString)
  | PList xs | PTuple xs => negb (Nat.eqb (length xs) 0)
  | PDict kvs => negb (Nat.eqb (length kvs) 0)
  | PGen _ => true
  end.

(** [lst.pop(0)] *)
Definition py_pop0 (v : pyval) : result pyval :=
  match v with
  | PList (x :: _) => Ok x
  | PList [] => Err IndexError
  | PDict _ => Err (KeyError "0")
  | _ => Err AttributeError
  end.

(** [v[0]] *)
Definition py_index0 (v : pyval) : result pyval :=
  match v with
  | PList (x :: _) | PTuple (x :: _) => Ok x
  | PList [] | PTuple [] => Err IndexError
  | PStr s => match s with
              | EmptyString => Err IndexError
              | String c _ => Ok (PStr (String c EmptyString))
              end
  | PDict kvs => Err (KeyError "0")
  | _ => Err TypeError
  end.

(** A settings value read with [getattr(settings, NAME, None)]: [None] when
    unset.  [configured] is its truthiness. *)
Definition configured (o : option string) : option string :=
  match o with
  | Some s => if String.eqb s EmptyString then None else Some s
  | None => None
  end.

(** ** GoSlateTranslatorService (free web backend) *)
Module GoSlate.

Section Service.
(** [self.service.translate(strings, target, source)]: the goslate client. *)
Variable translate_call : pyval -> string -> string -> result pyval.

(** The interpreter's minor version (setup.py declares Python 3 and no
    minor version).  [collections.Iterable] exists up to Python 3.9; it was
    removed in 3.10, where reading the attribute raises [AttributeError]. *)
Variable python_minor : nat.

(** The world: the values handed to the client, in order. *)
Definition world := list pyval.

(** [isinstance(v, collections.Iterable)]: the attribute is read first. *)
Definition isinstance_collections_Iterable (v : pyval) : M world bool :=
  if Nat.ltb python_minor 10 then ret (is_iterable v) else raise AttributeError.

Definition service_translate (v : pyval) (target source : string) : M world pyval :=
  fun w => (translate_call v target source, w ++ [v]).

(** [translate_strings]; [list(translations)] when not optimized. *)
Definition translate_strings (strings : pyval) (target source : string)
    (optimized : bool) : M world pyval :=
  it <- isinstance_collections_Iterable strings;;
  _ <- py_assert it "`strings` should a iterable containing string_types";;
  translations <- service_translate strings target source;;
  if optimized then ret translations
  else xs <- lift (py_iter translations);; ret (PList xs).

Definition translate_string (text : pyval) (target source : string) : M world pyval :=
  _ <- py_assert (is_str text) "`text` should a string literal";;
  service_translate text target source.

End Service.
End GoSlate.

(** ** GoogleAPITranslatorService (paid API backend) *)
Module GoogleAPI.

(** One [self.service.translations().list(source=, target=, q=)] request. *)
Record call := { call_source : string; call_target : string; call_q : pyval }.

Record GoogleAPITranslatorService := {
  request_count : Z;
  translated_strings : list pyval;
  max_segments : nat
}.

(** The service object and the requests sent to the API so far. *)
Record world := { obj : GoogleAPITranslatorService; sent : list call }.

Definition with_obj (f : GoogleAPITranslatorService -> GoogleAPITranslatorService)
    (w : world) : world :=
  {| obj := f (obj w); sent := sent w |}.

Definition set_request_count (n : Z) (s : GoogleAPITranslatorService) :=
  {| request_count := n; translated_strings := translated_strings s;
     max_segments := max_segments s |}.

Definition set_translated_strings (b : list pyval) (s : GoogleAPITranslatorService) :=
  {| request_count := request_count s; translated_strings := b;
     max_segments := max_segments s |}.

(** [__init__(max_segments=128)]: requires [GOOGLE_TRANSLATE_KEY].  The model
    takes [max_segments] as a natural number. *)
Definition init (google_translate_key : option string) (max_segments : nat)
    : result GoogleAPITranslatorService :=
  match configured google_translate_key with
  | Some _ => Ok {| request_count := 0; translated_strings := [];
                    max_segments := max_segments |}
  | None => Err (AssertionError "`GOOGLE_TRANSLATE_KEY` is not configured, it is required by `GoogleAPITranslatorService`")
  end.

Definition start (s : GoogleAPITranslatorService) : world :=
  {| obj := s; sent := [] |}.

Definition get_request_count : M world Z := gets (fun w => request_count (obj w)).

Section Service.
(** [.execute()] of a request: the API's response, or the client's error. *)
Variable execute : call -> result pyval.

Definition list_execute (source target : string) (q : pyval) : M world pyval :=
  fun w => let c := {| call_source := source; call_target := target; call_q := q |} in
           (execute c, {| obj := obj w; sent := sent w ++ [c] |}).

Definition incr_request_count : M world unit :=
  modify (with_obj (fun s => set_request_count (request_count s + 1) s)).

Definition extend_translated_strings (vals : list pyval) : M world unit :=
  modify (with_obj (fun s => set_translated_strings (translated_strings s ++ vals) s)).

Definition reset_translated_strings : M world unit :=
  modify (with_obj (set_translated_strings [])).

Definition translate_string (text : pyval) (target source : string) : M world pyval :=
  _ <- py_assert (is_str text) "`text` should a string literal";;
  response <- list_execute source target (PList [text]);;
  ts <- lift (dict_get response "translations" PNone);;
  first <- lift (py_pop0 ts);;
  lift (dict_get first "translatedText" PNone).

(** [translate_strings], with [fuel] bounding the depth of its recursion. *)
Fixpoint translate_strings_go (fuel : nat) (strings : pyval) (target source : string)
    (optimized : bool) : M world pyval :=
  match fuel with
  | O => raise RecursionError
  | S fuel' =>
    match strings with
    | PList xs =>
      _ <- py_assert (negb optimized)
             "optimized=True is not supported in `GoogleAPITranslatorService`";;
      m <- gets (fun w => max_segments (obj w));;
      if Nat.eqb (length xs) 0 then ret (PList [])
      else if Nat.leb (length xs) m then
        response <- list_execute source target strings;;
        _ <- incr_request_count;;
        ts <- lift (dict_get response "translations" PNone);;
        items <- lift (py_iter ts);;
        vals <- lift (map_result (fun t => dict_get t "translatedText" PNone) items);;
        _ <- extend_translated_strings vals;;
        buf <- gets (fun w => translated_strings (obj w));;
        ret (PList buf)
      else
        _ <- translate_strings_go fuel' (PList (firstn m xs)) target source optimized;;
        r <- translate_strings_go fuel' (PList (skipn m xs)) target source optimized;;
        (* reset the property or it will grow with subsequent calls *)
        _ <- reset_translated_strings;;
        ret r
    | _ => raise (AssertionError "`strings` should be a sequence containing string_types")
    end
  end.

(** A top-level call.  Python's stack is taken as unbounded: the fuel
    exceeds the length of the list, and every level of the recursion drops
    [max_segments >= 1] items; with [max_segments = 0] the recursion never
    ends and the fuel runs out, as Python's recursion limit would. *)
Definition call_depth (strings : pyval) : nat :=
  match strings with PList xs => S (length xs) | _ => 1 end.

Definition translate_strings (strings : pyval) (target source : string)
    (optimized : bool) : M world pyval :=
  translate_strings_go (call_depth strings) strings target source optimized.

End Service.
End GoogleAPI.

(** ** String formatting used in the error messages *)

(** Decimal digits of a non-negative integer, in front of [acc]. *)
Fixpoint decimal_digits (fuel : nat) (n : Z) (acc : string) : string :=
  match fuel with
  | O => acc
  | S f =>
    let acc' := String (ascii_of_nat (48 + Z.to_nat (n mod 10))) acc in
    if n <? 10 then acc' else decimal_digits f (n / 10) acc'
  end.

(** [str(n)] for an int. *)
Definition str_int (z : Z) : string :=
  if z <? 0
  then ("-" ++ decimal_digits (S (Z.to_nat (Z.log2 (- z)))) (- z) "")%string
  else decimal_digits (S (Z.to_nat (Z.log2 z))) z "".

Fixpoint join (sep : string) (xs : list string) : string :=
  match xs with
  | [] => ""
  | [x] => x
  | x :: r => (x ++ sep ++ join sep r)%string
  end.

(** [repr(v)], quotes not escaped. *)
Fixpoint py_repr (v : pyval) : string :=
  match v with
  | PNone => "None"
  | PBool true => "True"
  | PBool false => "False"
  | PInt z => str_int z
  | PStr s => ("'" ++ s ++ "'")%string
  | PList xs => ("[" ++ join ", " (map py_repr xs) ++ "]")%string
  | PTuple [x] => ("(" ++ py_repr x ++ ",)")%string
  | PTuple xs => ("(" ++ join ", " (map py_repr xs) ++ ")")%string
  | PDict kvs =>
    ("{" ++ join ", " (map (fun kv => "'" ++ fst kv ++ "': " ++ py_repr (snd kv)) kvs)
     ++ "}")%string
  | PGen _ => "<generator object>"
  end.

(** [str(v)], as an f-string formats [v]. *)
Definition py_str (v : pyval) : string :=
  match v with PStr s => s | _ => py_repr v end.

Definition newline : string := String (ascii_of_nat 10) EmptyString.

(** [s in container] for a string [s]. *)
Definition py_contains (container : pyval) (s : string) : result bool :=
  match container with
  | PDict kvs => Ok (existsb (fun kv => String.eqb (fst kv) s) kvs)
  | PList xs | PTuple xs | PGen xs =>
    Ok (existsb (fun x => match x with PStr t => String.eqb t s | _ => false end) xs)
  | PStr t => Ok (match String.index 0 s t with Some _ => true | None => false end)
  | _ => Err TypeError
  end.

(** ** YandexAPITranslatorService (cloud API backend) *)
Module YandexAPI.
Local Open Scope string_scope.

Record YandexAPITranslatorService := {
  api_url : string;
  api_key : option string;
  iam_token : option string;
  folder_id : option string;
  request_count : Z
}.

(** A [requests.post(url, json=body, headers=headers)] call. *)
Record request := {
  url : string;
  body : pyval;
  headers : list (string * string)
}.

(** The HTTP response; [json] is what [response.json()] returns or raises. *)
Record response := {
  status_code : Z;
  text : string;
  json : result pyval
}.

Record world := { obj : YandexAPITranslatorService; sent : list request }.

Definition incr_request_count (w : world) : world :=
  let s := obj w in
  {| obj := {| api_url := api_url s; api_key := api_key s; iam_token := iam_token s;
               folder_id := folder_id s; request_count := request_count s + 1 |};
     sent := sent w |}.

(** [__init__], from the settings [YANDEX_API_KEY], [YANDEX_IAM_TOKEN] and
    [YANDEX_FOLDER_ID]. *)
Definition init (key iam folder : option string) : result YandexAPITranslatorService :=
  let has_iam := match configured iam, configured folder with
                 | Some _, Some _ => true
                 | _, _ => false
                 end in
  let has_key := match configured key with Some _ => true | None => false end in
  if negb has_key && negb has_iam then
    Err (ValueError "Either `YANDEX_API_KEY` or both `YANDEX_IAM_TOKEN` and `YANDEX_FOLDER_ID` must be provided for `YandexAPITranslatorService`")
  else
    Ok {| api_url := "https://translate.api.cloud.yandex.net/translate/v2/translate";
          api_key := key; iam_token := iam; folder_id := folder; request_count := 0 |}.

Definition start (s : YandexAPITranslatorService) : world :=
  {| obj := s; sent := [] |}.

Definition get_request_count : M world Z := gets (fun w => request_count (obj w)).

Definition py_of_setting (o : option string) : pyval :=
  match o with Some s => PStr s | None => PNone end.

Section Service.
(** [requests.post]: the server's response, or the client's error. *)
Variable post : request -> result response.

Definition http_post (r : request) : M world response :=
  fun w => (post r, {| obj := obj w; sent := app (sent w) [r] |}).

(** The [Authorization] header scheme and the headers. *)
Definition auth_headers : M world (string * list (string * string)) :=
  s <- gets obj;;
  match configured (api_key s) with
  | Some k => ret ("api-key"%string, [("Content-Type"%string, "application/json"%string);
                              ("Authorization"%string, "Api-Key " ++ k)%string])
  | None =>
    match configured (iam_token s) with
    | Some t => ret ("iam"%string, [("Content-Type"%string, "application/json"%string);
                            ("Authorization"%string, "Bearer " ++ t)%string])
    | None => raise (ValueError "Neither Yandex API Key nor IAM Token is provided in the settings.")
    end
  end.

Definition translate_strings (strings : pyval) (target_language source_language : string)
    (optimized : bool) : M world pyval :=
  s <- gets obj;;
  let body := PDict [("targetLanguageCode", PStr target_language);
                     ("texts", strings);
                     ("folderId", py_of_setting (folder_id s))] in
  auth <- auth_headers;;
  let (use_auth, hdrs) := auth in
  resp <- http_post {| url := api_url s; body := body; headers := hdrs |};;
  _ <- modify incr_request_count;;
  if negb (Z.eqb (status_code resp) 200) then
    raise (Exception ("Error with status code " ++ str_int (status_code resp) ++ ": "
                      ++ text resp ++ " " ++ newline ++ "use_auth: " ++ use_auth)%string)
  else
    data <- lift (json resp);;
    has_error <- lift (py_contains data "error");;
    if has_error then
      err <- lift (getitem data "error");;
      raise (Exception ("Error from Yandex Translate API: " ++ py_str err)%string)
    else
      tr <- lift (dict_get data "translations" (PList []));;
      items <- lift (py_iter tr);;
      translated_texts <- lift (map_result (fun item => getitem item "text") items);;
      ret (PList translated_texts).

Definition translate_string (text : pyval) (target_language source_language : string)
    : M world pyval :=
  translated_text <- translate_strings (PList [text]) target_language source_language true;;
  if py_truthy translated_text then lift (py_index0 translated_text) else ret text.

End Service.
End YandexAPI.

(** ** Test doubles and measures used in the statements *)

(** A stub for the Google API: it answers a request [q = [x1; ...; xn]]
    with [{"translations": [{"translatedText": g x1}, ...]}]. *)
Definition stub_execute (g : pyval -> pyval) (c : GoogleAPI.call) : result pyval :=
  match GoogleAPI.call_q c with
  | PList xs =>
    Ok (PDict [("translations"%string,
                PList (map (fun x => PDict [("translatedText"%string, g x)]) xs))])
  | _ => Err TypeError
  end.

(** [ceil(n / m)] *)
Definition ceil_div (n m : nat) : nat := ((n + m - 1) / m)%nat.

(** A sample per-item translation. *)
Definition prefix_translation (x : pyval) : pyval :=
  match x with PStr s => PStr ("T:" ++ s)%string | _ => x end.

(** The Google service object as [__init__(max_segments)] builds it. *)
Definition google_fresh (m : nat) : GoogleAPI.GoogleAPITranslatorService :=
  {| GoogleAPI.request_count := 0; GoogleAPI.translated_strings := [];
     GoogleAPI.max_segments := m |}.

(** A Google service object with [max_segments = 2] whose buffer still
    holds a translation from an earlier call that fitted in one request. *)
Definition google_with_buffer : GoogleAPI.GoogleAPITranslatorService :=
  {| GoogleAPI.request_count := 1; GoogleAPI.translated_strings := [PStr "T:z"];
     GoogleAPI.max_segments := 2 |}.

(** A Yandex service object configured with the API key ["k"] only. *)
Definition yandex_key_only : YandexAPI.YandexAPITranslatorService :=
  {| YandexAPI.api_url := "https://translate.api.cloud.yandex.net/translate/v2/translate";
     YandexAPI.api_key := Some "k"%string; YandexAPI.iam_token := None;
     YandexAPI.folder_id := None; YandexAPI.request_count := 0 |}.

(** A server that answers every request with HTTP 400. *)
Definition bad_request_server (r : YandexAPI.request) : result YandexAPI.response :=
  Ok {| YandexAPI.status_code := 400; YandexAPI.text := "invalid texts"%string;
        YandexAPI.json := Ok (PDict []) |}.

(** A server that answers HTTP 200 with an ["error"] object in the body. *)
Definition embedded_error_server (r : YandexAPI.request) : result YandexAPI.response :=
  Ok {| YandexAPI.status_code := 200; YandexAPI.text := "quota exceeded"%string;
        YandexAPI.json := Ok (PDict [("error"%string,
                                      PDict [("message"%string, PStr "quota exceeded")])]) |}.

(** ** Proofs about the paid Google API backend *)
Module GoogleAPIProofs.
Import GoogleAPI.

Lemma map_result_stub (g : pyval -> pyval) (xs : list pyval) :
  map_result (fun t => dict_get t "translatedText" PNone)
    (map (fun x => PDict [("translatedText"%string, g x)]) xs) = Ok (map g xs).
Proof. induction xs as [|x xs IH]; simpl; [reflexivity | now rewrite IH]. Qed.

Lemma ceil_div_small (n m : nat) : (0 < n)%nat -> (n <= m)%nat -> ceil_div n m = 1%nat.
Proof.
  intros Hn Hm. unfold ceil_div. symmetry.
  apply (Nat.div_unique _ _ _ (n - 1)); lia.
Qed.

Lemma ceil_div_step (n m : nat) : (0 < m)%nat -> (m < n)%nat ->
  ceil_div n m = S (ceil_div (n - m)%nat m).
Proof.
  intros Hm Hn. unfold ceil_div.
  replace (n + m - 1)%nat with ((n - m + m - 1) + 1 * m)%nat by lia.
  rewrite Nat.div_add by lia. lia.
Qed.

(** A batch that fits in one request: one call, the translations appended
    to the buffer, and the buffer returned. *)
Lemma translate_strings_go_leaf (g : pyval -> pyval) (fuel : nat) (xs : list pyval)
    (w : world) (target source : string) :
  xs <> [] -> (length xs <= max_segments (obj w))%nat ->
  translate_strings_go (stub_execute g) (S fuel) (PList xs) target source false w =
  (Ok (PList (translated_strings (obj w) ++ map g xs)),
   {| obj := {| request_count := request_count (obj w) + 1;
                translated_strings := translated_strings (obj w) ++ map g xs;
                max_segments := max_segments (obj w) |};
      sent := sent w ++ [{| call_source := source; call_target := target;
                            call_q := PList xs |}] |}).
Proof.
  intros Hne Hle.
  destruct xs as [|x xs']; [congruence|].
  apply Nat.leb_le in Hle.
  simpl translate_strings_go.
  unfold list_execute, bind, py_assert, incr_request_count, modify, lift, gets, ret,
    extend_translated_strings, with_obj.
  cbn -[Nat.leb map_result map]. simpl in Hle. rewrite Hle.
  cbn -[map_result map]. rewrite (map_result_stub g (x :: xs')). reflexivity.
Qed.

(** A batch larger than [max_segments]: the first chunk, then the rest, then
    the buffer reset; the rest's result is returned. *)
Lemma translate_strings_go_split (execute : call -> result pyval) (fuel : nat)
    (xs : list pyval) (w : world) (target source : string) :
  (max_segments (obj w) < length xs)%nat ->
  translate_strings_go execute (S fuel) (PList xs) target source false w =
  match translate_strings_go execute fuel (PList (firstn (max_segments (obj w)) xs))
          target source false w with
  | (Err e, w1) => (Err e, w1)
  | (Ok _, w1) =>
    match translate_strings_go execute fuel (PList (skipn (max_segments (obj w)) xs))
            target source false w1 with
    | (Err e, w2) => (Err e, w2)
    | (Ok r, w2) => (Ok r, with_obj (set_translated_strings []) w2)
    end
  end.
Proof.
  intros Hlt.
  cbn [translate_strings_go].
  unfold bind, py_assert, gets, ret, reset_translated_strings, modify. cbn -[firstn skipn].
  destruct (Nat.eqb_spec (length xs) 0) as [E|_]; [lia|].
  destruct (Nat.leb_spec (length xs) (max_segments (obj w))) as [E|_]; [lia|].
  destruct (translate_strings_go execute fuel _ _ _ _ w) as [[r1|e1] w1]; [|reflexivity].
  destruct (translate_strings_go execute fuel _ _ _ _ w1) as [[r2|e2] w2]; reflexivity.
Qed.

(** The recursion against the stub, from any object state with a positive
    [max_segments] and enough stack: the result is the buffer followed by
    the translations, one call per chunk of [max_segments] items, and the
    buffer is left reset exactly when the batch was split. *)
Lemma translate_strings_go_stub (g : pyval -> pyval) (fuel : nat) (xs : list pyval)
    (w : world) (target source : string) :
  (0 < max_segments (obj w))%nat -> xs <> [] -> (length xs < fuel)%nat ->
  exists w',
    translate_strings_go (stub_execute g) fuel (PList xs) target source false w =
      (Ok (PList (translated_strings (obj w) ++ map g xs)), w')
    /\ max_segments (obj w') = max_segments (obj w)
    /\ request_count (obj w') =
         request_count (obj w) + Z.of_nat (ceil_div (length xs) (max_segments (obj w)))
    /\ length (sent w') = (length (sent w) + ceil_div (length xs) (max_segments (obj w)))%nat
    /\ translated_strings (obj w') =
         if Nat.leb (length xs) (max_segments (obj w))
         then translated_strings (obj w) ++ map g xs else [].
Proof.
  revert xs w.
  induction fuel as [|fuel IH]; intros xs w Hm Hne Hfuel; [lia|].
  assert (Hlen : (0 < length xs)%nat) by (destruct xs; [congruence | simpl; lia]).
  destruct (Nat.leb_spec (length xs) (max_segments (obj w))) as [Hle|Hgt].
  - rewrite (translate_strings_go_leaf g fuel xs w target source Hne Hle).
    eexists; split; [reflexivity|].
    rewrite (ceil_div_small _ _ Hlen Hle). simpl.
    rewrite length_app. simpl. repeat split; lia.
  - rewrite (translate_strings_go_split _ fuel xs w target source Hgt).
    set (m := max_segments (obj w)) in *.
    assert (Hfirst_len : length (firstn m xs) = m) by (rewrite length_firstn; lia).
    assert (Hskip_len : length (skipn m xs) = (length xs - m)%nat) by apply length_skipn.
    destruct (IH (firstn m xs) w Hm) as (w1 & E1 & Hm1 & Hc1 & Hs1 & Hb1).
    { destruct (firstn m xs); simpl in Hfirst_len; [lia | congruence]. }
    { lia. }
    rewrite E1.
    assert (Hm1' : (0 < max_segments (obj w1))%nat) by (rewrite Hm1; exact Hm).
    destruct (IH (skipn m xs) w1 Hm1') as (w2 & E2 & Hm2 & Hc2 & Hs2 & Hb2).
    { destruct (skipn m xs); simpl in Hskip_len; [lia | congruence]. }
    { lia. }
    rewrite E2.
    rewrite Hfirst_len in Hb1. fold m in Hb1. rewrite Nat.leb_refl in Hb1.
    rewrite Hb1, <- app_assoc, <- map_app, firstn_skipn.
    eexists; split; [reflexivity|].
    unfold with_obj, set_translated_strings; simpl.
    fold m in Hc1, Hs1. rewrite Hm1 in Hc2, Hs2. fold m in Hc2, Hs2.
    rewrite Hfirst_len in Hc1, Hs1. rewrite Hskip_len in Hc2, Hs2.
    rewrite (ceil_div_small m m) in Hc1, Hs1 by lia.
    rewrite (ceil_div_step (length xs) m Hm Hgt).
    destruct (Nat.leb_spec (length xs) m) as [|_]; [lia|].
    repeat split; [rewrite Hm2; exact Hm1 | | lia].
    rewrite Hc2, Hc1. lia.
Qed.

Lemma init_fresh (key : option string) (m : nat) (s : GoogleAPITranslatorService) :
  init key m = Ok s -> s = google_fresh m.
Proof.
  unfold init. destruct (configured key); intros H; inversion H; reflexivity.
Qed.

(** C1.  Chunked translation with a per-item stub, on a fresh instance:
    the result is the input translated item by item, in order, of the input's
    length, and [ceil(n / max_segments)] requests are sent (and counted). *)
Theorem translate_strings_chunked_stub (g : pyval -> pyval) (key : option string)
    (m : nat) (s : GoogleAPITranslatorService) (xs : list pyval) (target source : string) :
  init key m = Ok s -> (0 < m)%nat -> (m < length xs)%nat ->
  exists w',
    translate_strings (stub_execute g) (PList xs) target source false (start s) =
      (Ok (PList (map g xs)), w')
    /\ length (map g xs) = length xs
    /\ length (sent w') = ceil_div (length xs) m
    /\ request_count (obj w') = Z.of_nat (ceil_div (length xs) m).
Proof.
  intros Hinit Hm Hgt. apply init_fresh in Hinit. subst s.
  assert (Hne : xs <> []) by (destruct xs; simpl in Hgt; [lia | congruence]).
  destruct (translate_strings_go_stub g (S (length xs)) xs (start (google_fresh m))
              target source Hm Hne (Nat.lt_succ_diag_r _))
    as (w' & E & _ & Hc & Hs & _).
  exists w'. unfold translate_strings, call_depth. rewrite E.
  simpl in Hc, Hs. repeat split; [now rewrite length_map | exact Hs | exact Hc].
Qed.

Lemma translate_strings_chunked_stub_witness :
  init (Some "key"%string) 2 = Ok (google_fresh 2) /\ (0 < 2)%nat
  /\ (2 < length [PStr "a"; PStr "b"; PStr "c"])%nat
  /\ exists w',
    translate_strings (stub_execute prefix_translation) (PList [PStr "a"; PStr "b"; PStr "c"])
      "ru" "en" false (start (google_fresh 2)) =
      (Ok (PList (map prefix_translation [PStr "a"; PStr "b"; PStr "c"])), w')
    /\ length (map prefix_translation [PStr "a"; PStr "b"; PStr "c"]) = 3%nat
    /\ length (sent w') = ceil_div 3 2
    /\ request_count (obj w') = Z.of_nat (ceil_div 3 2).
Proof.
  split; [reflexivity|]. split; [lia|]. split; [simpl; lia|].
  apply (translate_strings_chunked_stub prefix_translation (Some "key"%string) 2
           (google_fresh 2) [PStr "a"; PStr "b"; PStr "c"] "ru" "en");
    [reflexivity | lia | simpl; lia].
Defined.

(** What the buffer reset does achieve, from any state of the object (its
    buffer may still hold an earlier call's translations): a top-level call
    that is split returns the old buffer followed by its own translations and
    leaves the buffer empty, so a following batch that fits in one request
    returns only its own translations. *)
Lemma chunked_then_small_batch (g : pyval -> pyval) (w : world) (xs ys : list pyval)
    (target source : string) :
  (0 < max_segments (obj w))%nat -> (max_segments (obj w) < length xs)%nat ->
  ys <> [] -> (length ys <= max_segments (obj w))%nat ->
  exists w1 w2,
    translate_strings (stub_execute g) (PList xs) target source false w =
      (Ok (PList (translated_strings (obj w) ++ map g xs)), w1)
    /\ translated_strings (obj w1) = []
    /\ translate_strings (stub_execute g) (PList ys) target source false w1 =
       (Ok (PList (map g ys)), w2).
Proof.
  intros Hm Hgt Hne Hle.
  assert (Hxs : xs <> []) by (destruct xs; simpl in Hgt; [lia | congruence]).
  destruct (translate_strings_go_stub g (S (length xs)) xs w
              target source Hm Hxs (Nat.lt_succ_diag_r _))
    as (w1 & E1 & Hm1 & _ & _ & Hb1).
  destruct (Nat.leb_spec (length xs) (max_segments (obj w))) as [|_]; [lia|].
  exists w1.
  assert (Hle' : (length ys <= max_segments (obj w1))%nat) by lia.
  eexists. split; [unfold translate_strings, call_depth; exact E1|].
  split; [exact Hb1|].
  unfold translate_strings, call_depth.
  rewrite (translate_strings_go_leaf g (length ys) ys w1 target source Hne Hle').
  rewrite Hb1. reflexivity.
Qed.

(** C2 (code bug).  The buffer is reset only on the split path: two
    top-level calls that each fit in one request, on one fresh instance; the
    second call's result still holds the first call's translation. *)
Theorem translate_strings_small_batches_accumulate :
  let w0 := start (google_fresh 128) in
  let '(r1, w1) := translate_strings (stub_execute prefix_translation)
                     (PList [PStr "a"]) "ru" "en" false w0 in
  let '(r2, w2) := translate_strings (stub_execute prefix_translation)
                     (PList [PStr "b"]) "ru" "en" false w1 in
  r1 = Ok (PList [PStr "T:a"])
  /\ r2 = Ok (PList [PStr "T:a"; PStr "T:b"])
  /\ translated_strings (obj w2) = [PStr "T:a"; PStr "T:b"].
Proof. vm_compute. repeat split; reflexivity. Qed.

(** C3 (code bug).  [translate_string] sends a request but does not count
    it: on a fresh instance one request is sent and [request_count] stays 0. *)
Theorem translate_string_request_not_counted :
  let '(r, w) := translate_string (stub_execute prefix_translation) (PStr "a") "ru" "en"
                   (start (google_fresh 128)) in
  r = Ok (PStr "T:a") /\ length (sent w) = 1%nat /\ request_count (obj w) = 0.
Proof. vm_compute. repeat split; reflexivity. Qed.

(** [translate_strings] does count: against the stub, from a fresh
    instance, the counter equals the number of requests sent. *)
Lemma translate_strings_counts_requests (g : pyval -> pyval) (m : nat) (xs : list pyval)
    (target source : string) :
  (0 < m)%nat -> xs <> [] ->
  exists w',
    translate_strings (stub_execute g) (PList xs) target source false
      (start (google_fresh m)) = (Ok (PList (map g xs)), w')
    /\ request_count (obj w') = Z.of_nat (length (sent w')).
Proof.
  intros Hm Hne.
  destruct (translate_strings_go_stub g (S (length xs)) xs (start (google_fresh m))
              target source Hm Hne (Nat.lt_succ_diag_r _))
    as (w' & E & _ & Hc & Hs & _).
  exists w'. split; [exact E|]. simpl in Hc, Hs. rewrite Hc, Hs. reflexivity.
Qed.

(** C5.  An empty list (with [optimized=False], the only flag the method
    accepts) returns [[]] at once and leaves the world as it was: no request
    sent, counter and buffer unchanged. *)
Theorem translate_strings_empty (execute : call -> result pyval) (w : world)
    (target source : string) :
  translate_strings execute (PList []) target source false w = (Ok (PList []), w).
Proof. reflexivity. Qed.

(** With [max_segments = 0] a non-empty batch is never sent: every level of
    the recursion takes an empty first chunk and recurses on the whole list
    again, until the recursion limit; no request goes out and the object is
    untouched. *)
Lemma translate_strings_zero_max_segments (execute : call -> result pyval)
    (xs : list pyval) (w : world) (target source : string) :
  max_segments (obj w) = 0%nat -> xs <> [] ->
  translate_strings execute (PList xs) target source false w = (Err RecursionError, w).
Proof.
  intros Hm Hne. unfold translate_strings, call_depth.
  generalize (S (length xs)) as fuel.
  induction fuel as [|fuel IH]; [reflexivity|].
  assert (Hlt : (max_segments (obj w) < length xs)%nat)
    by (rewrite Hm; destruct xs; [congruence | simpl; lia]).
  rewrite (translate_strings_go_split execute fuel xs w target source Hlt).
  rewrite Hm. simpl firstn. simpl skipn.
  destruct fuel as [|fuel]; [reflexivity|].
  assert (E0 : translate_strings_go execute (S fuel) (PList []) target source false w =
               (Ok (PList []), w)) by reflexivity.
  rewrite E0. cbn -[translate_strings_go]. rewrite IH. reflexivity.
Qed.

Lemma translate_strings_zero_max_segments_witness :
  max_segments (obj (start (google_fresh 0))) = 0%nat /\ [PStr "a"] <> []
  /\ translate_strings (stub_execute prefix_translation) (PList [PStr "a"]) "ru" "en" false
       (start (google_fresh 0)) = (Err RecursionError, start (google_fresh 0)).
Proof.
  split; [reflexivity|]. split; [discriminate|].
  apply translate_strings_zero_max_segments; [reflexivity | discriminate].
Defined.

(** The requests the recursion sends against the stub are the input cut
    into consecutive chunks: together they are the input in order, each has
    between 1 and [max_segments] items, and all but the last have exactly
    [max_segments]. *)
Lemma translate_strings_go_stub_chunks (g : pyval -> pyval) (fuel : nat) (xs : list pyval)
    (w : world) (target source : string) :
  (0 < max_segments (obj w))%nat -> xs <> [] -> (length xs < fuel)%nat ->
  exists chunks,
    sent (snd (translate_strings_go (stub_execute g) fuel (PList xs) target source false w)) =
      sent w ++ map (fun ys => {| call_source := source; call_target := target;
                                  call_q := PList ys |}) chunks
    /\ concat chunks = xs
    /\ Forall (fun ys => 0 < length ys <= max_segments (obj w))%nat chunks
    /\ Forall (fun ys => length ys = max_segments (obj w)) (removelast chunks).
Proof.
  revert xs w.
  induction fuel as [|fuel IH]; intros xs w Hm Hne Hfuel; [lia|].
  assert (Hlen : (0 < length xs)%nat) by (destruct xs; [congruence | simpl; lia]).
  destruct (Nat.leb_spec (length xs) (max_segments (obj w))) as [Hle|Hgt].
  - rewrite (translate_strings_go_leaf g fuel xs w target source Hne Hle).
    exists [xs]. simpl. rewrite app_nil_r. repeat split; auto.
  - rewrite (translate_strings_go_split _ fuel xs w target source Hgt).
    set (m := max_segments (obj w)) in *.
    assert (Hfirst_len : length (firstn m xs) = m) by (rewrite length_firstn; lia).
    assert (Hfne : firstn m xs <> [])
      by (destruct (firstn m xs); simpl in Hfirst_len; [lia | congruence]).
    assert (Hsne : skipn m xs <> []).
    { intros E. apply (f_equal (@length pyval)) in E. rewrite length_skipn in E. simpl in E. lia. }
    destruct fuel as [|fuel']; [lia|].
    rewrite (translate_strings_go_leaf g fuel' (firstn m xs) w target source Hfne
               ltac:(rewrite Hfirst_len; lia)).
    set (w1 := {| obj := _; sent := _ |}).
    destruct (IH (skipn m xs) w1 Hm Hsne) as (chunks & Hs & Hc & Hb & Hl).
    { rewrite length_skipn. lia. }
    destruct (translate_strings_go_stub g (S fuel') (skipn m xs) w1 target source Hm Hsne)
      as (w2 & E2 & _).
    { rewrite length_skipn. lia. }
    rewrite E2 in Hs |- *. simpl in Hs |- *.
    exists (firstn m xs :: chunks). split; [|split; [|split]].
    + rewrite Hs, <- app_assoc. reflexivity.
    + simpl. rewrite Hc. apply firstn_skipn.
    + constructor; [lia | exact Hb].
    + destruct chunks as [|c cs]; [simpl in Hc; congruence|].
      change (removelast (firstn m xs :: c :: cs)) with (firstn m xs :: removelast (c :: cs)).
      constructor; [exact Hfirst_len | exact Hl].
Qed.

(** The same for a top-level call. *)
Lemma translate_strings_stub_chunks (g : pyval -> pyval) (xs : list pyval) (w : world)
    (target source : string) :
  (0 < max_segments (obj w))%nat -> xs <> [] ->
  exists chunks,
    sent (snd (translate_strings (stub_execute g) (PList xs) target source false w)) =
      sent w ++ map (fun ys => {| call_source := source; call_target := target;
                                  call_q := PList ys |}) chunks
    /\ concat chunks = xs
    /\ Forall (fun ys => 0 < length ys <= max_segments (obj w))%nat chunks
    /\ Forall (fun ys => length ys = max_segments (obj w)) (removelast chunks).
Proof.
  intros Hm Hne.
  exact (translate_strings_go_stub_chunks g (S (length xs)) xs w target source Hm Hne
           (Nat.lt_succ_diag_r _)).
Qed.

Lemma translate_strings_stub_chunks_witness :
  (0 < max_segments (obj (start (google_fresh 2))))%nat /\ [PStr "a"; PStr "b"; PStr "c"] <> []
  /\ exists chunks,
    sent (snd (translate_strings (stub_execute prefix_translation)
                 (PList [PStr "a"; PStr "b"; PStr "c"]) "ru" "en" false
                 (start (google_fresh 2)))) =
      sent (start (google_fresh 2))
        ++ map (fun ys => {| call_source := "en"; call_target := "ru";
                             call_q := PList ys |}) chunks
    /\ concat chunks = [PStr "a"; PStr "b"; PStr "c"]
    /\ Forall (fun ys => 0 < length ys <= max_segments (obj (start (google_fresh 2))))%nat chunks
    /\ Forall (fun ys => length ys = max_segments (obj (start (google_fresh 2))))
         (removelast chunks).
Proof.
  split; [simpl; lia|]. split; [discriminate|].
  apply translate_strings_stub_chunks; [simpl; lia | discriminate].
Defined.

Lemma chunked_then_small_batch_witness :
  (0 < max_segments google_with_buffer)%nat
  /\ (max_segments google_with_buffer < length [PStr "a"; PStr "b"; PStr "c"])%nat
  /\ [PStr "d"] <> [] /\ (length [PStr "d"] <= max_segments google_with_buffer)%nat
  /\ exists w1 w2,
    translate_strings (stub_execute prefix_translation) (PList [PStr "a"; PStr "b"; PStr "c"])
      "ru" "en" false (start google_with_buffer) =
      (Ok (PList ([PStr "T:z"] ++ map prefix_translation [PStr "a"; PStr "b"; PStr "c"])), w1)
    /\ translated_strings (obj w1) = []
    /\ translate_strings (stub_execute prefix_translation) (PList [PStr "d"]) "ru" "en" false w1 =
       (Ok (PList (map prefix_translation [PStr "d"])), w2).
Proof.
  split; [simpl; lia|]. split; [simpl; lia|]. split; [discriminate|]. split; [simpl; lia|].
  apply (chunked_then_small_batch prefix_translation (start google_with_buffer)); [simpl; lia | simpl; lia | discriminate | simpl; lia].
Defined.

Lemma translate_strings_counts_requests_witness :
  (0 < 2)%nat /\ [PStr "a"; PStr "b"; PStr "c"] <> []
  /\ exists w',
    translate_strings (stub_execute prefix_translation) (PList [PStr "a"; PStr "b"; PStr "c"])
      "ru" "en" false (start (google_fresh 2)) =
      (Ok (PList (map prefix_translation [PStr "a"; PStr "b"; PStr "c"])), w')
    /\ request_count (obj w') = Z.of_nat (length (sent w')).
Proof.
  split; [lia|]. split; [discriminate|].
  apply translate_strings_counts_requests; [lia | discriminate].
Defined.

End GoogleAPIProofs.

(** ** Proofs about the free GoSlate backend *)
Module GoSlateProofs.
Import GoSlate.
Local Open Scope string_scope.



(** Up to Python 3.9: an iterable batch goes to the client in one call; with
    [optimized=True] the client's result is returned as it is, with
    [optimized=False] the items it yields are collected into a list, in
    order; a batch that is not iterable is refused by the assertion before
    the client is called. *)
Lemma translate_strings_result (translate_call : pyval -> string -> string -> result pyval)
    (python_minor : nat) (strings r : pyval) (w : world) (target source : string) :
  (python_minor < 10)%nat ->
  (is_iterable strings = true -> translate_call strings target source = Ok r ->
   translate_strings translate_call python_minor strings target source true w =
     (Ok r, app w [strings])
   /\ (forall xs, py_iter r = Ok xs ->
       translate_strings translate_call python_minor strings target source false w =
         (Ok (PList xs), app w [strings])))
  /\ (is_iterable strings = false -> forall optimized,
      translate_strings translate_call python_minor strings target source optimized w =
        (Err (AssertionError "`strings` should a iterable containing string_types"), w)).
Proof.
  intros Hv.
  unfold translate_strings, isinstance_collections_Iterable, py_assert, bind,
    service_translate, ret, raise, lift.
  destruct (Nat.ltb_spec python_minor 10) as [_|Hge]; [|lia].
  split.
  - intros Hit Hr. rewrite Hit. cbn. rewrite Hr. split; [reflexivity|].
    intros xs Hxs. rewrite Hxs. reflexivity.
  - intros Hit optimized. rewrite Hit. reflexivity.
Qed.

Lemma translate_strings_result_witness :
  (9 < 10)%nat
  /\ translate_strings (fun _ _ _ => Ok (PGen [PStr "A"])) 9 (PList [PStr "a"]) "ru" "en" true []
       = (Ok (PGen [PStr "A"]), app [] [PList [PStr "a"]])
  /\ translate_strings (fun _ _ _ => Ok (PGen [PStr "A"])) 9 (PList [PStr "a"]) "ru" "en" false []
       = (Ok (PList [PStr "A"]), app [] [PList [PStr "a"]])
  /\ translate_strings (fun _ _ _ => Ok (PGen [PStr "A"])) 9 (PInt 5) "ru" "en" true []
       = (Err (AssertionError "`strings` should a iterable containing string_types"), []).
Proof.
  destruct (translate_strings_result (fun _ _ _ => Ok (PGen [PStr "A"])) 9 (PList [PStr "a"])
              (PGen [PStr "A"]) [] "ru" "en") as [H1 _]; [lia|].
  destruct (translate_strings_result (fun _ _ _ => Ok (PGen [PStr "A"])) 9 (PInt 5)
              (PGen [PStr "A"]) [] "ru" "en") as [_ H2]; [lia|].
  destruct (H1 eq_refl eq_refl) as [E1 E2].
  split; [lia|]. split; [exact E1|]. split; [exact (E2 [PStr "A"] eq_refl)|].
  exact (H2 eq_refl true).
Defined.

End GoSlateProofs.

(** ** Proofs about the Yandex Cloud API backend *)
Module YandexAPIProofs.
Import YandexAPI.
Local Open Scope string_scope.

Lemma str_append_assoc (a b c : string) : (a ++ b) ++ c = a ++ (b ++ c).
Proof. induction a as [|ch a IH]; simpl; [reflexivity | now rewrite IH]. Qed.

Lemma configured_nonempty (k : string) : k <> "" -> configured (Some k) = Some k.
Proof. intros H. simpl. destruct (String.eqb_spec k "") as [E|_]; [contradiction | reflexivity]. Qed.

Lemma existsb_key_assoc {A} (kvs : list (string * A)) (k : string) :
  existsb (fun kv => String.eqb (fst kv) k) kvs = true -> exists v, assoc k kvs = Some v.
Proof.
  induction kvs as [|[k' v] r IH]; simpl; [discriminate|].
  destruct (String.eqb_spec k' k) as [->|Hne]; simpl.
  - rewrite String.eqb_refl. eauto.
  - intros H. destruct (String.eqb_spec k k') as [->|_]; [contradiction|]. auto.
Qed.

Lemma auth_headers_api_key (w : world) (k : string) :
  configured (api_key (obj w)) = Some k ->
  auth_headers w = (Ok ("api-key", [("Content-Type", "application/json");
                                    ("Authorization", "Api-Key " ++ k)]), w).
Proof. intros H. unfold auth_headers, bind, gets. rewrite H. reflexivity. Qed.

Lemma auth_headers_iam (w : world) (t : string) :
  configured (api_key (obj w)) = None -> configured (iam_token (obj w)) = Some t ->
  auth_headers w = (Ok ("iam", [("Content-Type", "application/json");
                                ("Authorization", "Bearer " ++ t)]), w).
Proof. intros H1 H2. unfold auth_headers, bind, gets. rewrite H1, H2. reflexivity. Qed.

(** An instance built by [__init__] has a usable credential. *)
Lemma init_auth_headers (key iam folder : option string) (s : YandexAPITranslatorService) :
  init key iam folder = Ok s ->
  exists use_auth hdrs, auth_headers (start s) = (Ok (use_auth, hdrs), start s).
Proof.
  unfold init. intros H.
  destruct (configured key) as [k|] eqn:Ek.
  - simpl in H. inversion H; subst s.
    do 2 eexists. apply auth_headers_api_key. exact Ek.
  - destruct (configured iam) as [t|] eqn:Et; destruct (configured folder) eqn:Ef;
      simpl in H; try discriminate H.
    inversion H; subst s. do 2 eexists. apply auth_headers_iam; [exact Ek | exact Et].
Qed.

Lemma assoc_some_in {A} (k : string) (kvs : list (string * A)) (v : A) :
  assoc k kvs = Some v -> In k (map fst kvs).
Proof.
  induction kvs as [|[k' v'] r IH]; cbn [assoc map fst]; [discriminate|].
  destruct (String.eqb_spec k k') as [->|_]; intros H; [left; reflexivity | right; exact (IH H)].
Qed.

Lemma in_keys_existsb {A} (kvs : list (string * A)) (k : string) :
  In k (map fst kvs) <-> existsb (fun kv => String.eqb (fst kv) k) kvs = true.
Proof.
  rewrite existsb_exists, in_map_iff. split.
  - intros (kv & E & Hin). exists kv. split; [exact Hin|]. subst k. apply String.eqb_refl.
  - intros (kv & Hin & E). exists kv. split; [|exact Hin]. now apply String.eqb_eq.
Qed.

(** Run [translate_strings] up to the response, given the headers. *)
Ltac run_to_response Hauth :=
  unfold translate_strings, bind, gets; cbn -[auth_headers]; rewrite Hauth;
  unfold http_post, raise, ret, lift, modify, incr_request_count; cbn.

(** Whatever [strings] is, one request is sent and it carries [strings] as
    its ["texts"]: [translate_strings] checks nothing about its input. *)
Lemma translate_strings_sends_any_input (post : request -> result response)
    (key iam folder : option string) (s : YandexAPITranslatorService)
    (strings : pyval) (target source : string) (optimized : bool) :
  init key iam folder = Ok s ->
  exists req,
    sent (snd (translate_strings post strings target source optimized (start s))) = [req]
    /\ body req = PDict [("targetLanguageCode", PStr target); ("texts", strings);
                         ("folderId", py_of_setting folder)].
Proof.
  intros Hinit.
  assert (Hf : folder_id s = folder)
    by (unfold init in Hinit; destruct (_ && _); inversion Hinit; reflexivity).
  destruct (init_auth_headers key iam folder s Hinit) as (ua & hdrs & Hauth).
  run_to_response Hauth. rewrite Hf.
  destruct (post _) as [resp|e]; cbn; [|eexists; split; reflexivity].
  destruct (negb _); cbn; [eexists; split; reflexivity|].
  repeat (match goal with |- context [match ?x with _ => _ end] => destruct x end; cbn);
    eexists; split; reflexivity.
Qed.

(** A 200 response without an error key and with no translations (the key
    absent, or an empty list) gives an empty list. *)
Lemma translate_strings_zero_translations (key iam folder : option string)
    (s : YandexAPITranslatorService) (resp : response) (kvs : list (string * pyval))
    (strings : pyval) (target source : string) (optimized : bool) :
  init key iam folder = Ok s -> status_code resp = 200 -> json resp = Ok (PDict kvs) ->
  ~ In "error" (map fst kvs) ->
  assoc "translations" kvs = None \/ assoc "translations" kvs = Some (PList []) ->
  exists w, translate_strings (fun _ => Ok resp) strings target source optimized (start s) =
            (Ok (PList []), w).
Proof.
  intros Hinit Hst Hj Hnerr Htr.
  destruct (init_auth_headers key iam folder s Hinit) as (ua & hdrs & Hauth).
  assert (Hex : existsb (fun kv => String.eqb (fst kv) "error") kvs = false).
  { destruct (existsb _ kvs) eqn:E; [|reflexivity].
    exfalso. apply Hnerr. now apply in_keys_existsb. }
  run_to_response Hauth. rewrite Hst, Hj. cbn. rewrite Hex. cbn.
  destruct Htr as [Htr|Htr]; rewrite Htr; cbn; eexists; reflexivity.
Qed.
(** C6.  With both an API key and an IAM token configured, the one request
    [translate_strings] sends carries [Authorization: Api-Key <key>]. *)
Theorem translate_strings_api_key_precedence (post : request -> result response)
    (k t : string) (folder : option string) (s : YandexAPITranslatorService)
    (strings : pyval) (target source : string) (optimized : bool) :
  k <> "" -> t <> "" -> init (Some k) (Some t) folder = Ok s ->
  exists req,
    sent (snd (translate_strings post strings target source optimized (start s))) = [req]
    /\ headers req = [("Content-Type", "application/json");
                      ("Authorization", "Api-Key " ++ k)].
Proof.
  intros Hk Ht Hinit.
  assert (Ha : auth_headers (start s) =
               (Ok ("api-key", [("Content-Type", "application/json");
                                ("Authorization", "Api-Key " ++ k)]), start s)).
  { apply auth_headers_api_key. unfold init in Hinit.
    rewrite (configured_nonempty k Hk) in Hinit. inversion Hinit; subst s.
    apply configured_nonempty, Hk. }
  unfold translate_strings, bind, gets. cbn -[auth_headers]. rewrite Ha.
  unfold http_post, raise, ret, lift, modify, incr_request_count. cbn.
  destruct (post _) as [resp|e]; cbn; [|eexists; split; reflexivity].
  destruct (negb _); cbn; [eexists; split; reflexivity|].
  repeat (match goal with |- context [match ?x with _ => _ end] => destruct x end; cbn);
    eexists; split; reflexivity.
Qed.
Lemma translate_strings_api_key_precedence_witness :
  let s := {| api_url := "https://translate.api.cloud.yandex.net/translate/v2/translate";
              api_key := Some "k"; iam_token := Some "t"; folder_id := None;
              request_count := 0 |} in
  "k" <> "" /\ "t" <> "" /\ init (Some "k") (Some "t") None = Ok s
  /\ exists req,
       sent (snd (translate_strings bad_request_server (PList [PStr "a"]) "ru" "en" true
                    (start s))) = [req]
       /\ headers req = [("Content-Type", "application/json");
                         ("Authorization", "Api-Key " ++ "k")].
Proof.
  intros s. split; [discriminate|]. split; [discriminate|]. split; [reflexivity|].
  apply (translate_strings_api_key_precedence bad_request_server "k" "t" None s
           (PList [PStr "a"]) "ru" "en" true); [discriminate | discriminate | reflexivity].
Defined.


(** C7.  A non-200 status raises [Exception] whose message holds the status
    code and the body text; a 200 response whose JSON object has an
    ["error"] key raises [Exception] too. *)
Theorem translate_strings_error_responses (key iam folder : option string)
    (s : YandexAPITranslatorService) (resp : response) (strings : pyval)
    (target source : string) (optimized : bool) :
  init key iam folder = Ok s ->
  (status_code resp <> 200 ->
   exists msg w,
     translate_strings (fun _ => Ok resp) strings target source optimized (start s) =
       (Err (Exception msg), w)
     /\ (exists pre post, msg = pre ++ str_int (status_code resp) ++ post)
     /\ (exists pre post, msg = pre ++ text resp ++ post))
  /\ (forall kvs, status_code resp = 200 -> json resp = Ok (PDict kvs) ->
      In "error" (map fst kvs) ->
      exists msg w,
        translate_strings (fun _ => Ok resp) strings target source optimized (start s) =
          (Err (Exception msg), w)).
Proof.
  intros Hinit.
  destruct (init_auth_headers key iam folder s Hinit) as (ua & hdrs & Hauth).
  split.
  - intros Hst. run_to_response Hauth.
    rewrite (proj2 (Z.eqb_neq _ _) Hst). cbn.
    do 2 eexists. split; [reflexivity|]. split.
    + exists "Error with status code ".
      exists (": " ++ text resp ++ " " ++ newline ++ "use_auth: " ++ ua). reflexivity.
    + exists ("Error with status code " ++ str_int (status_code resp) ++ ": ").
      exists (" " ++ newline ++ "use_auth: " ++ ua).
      rewrite !str_append_assoc. reflexivity.
  - intros kvs Hst Hj Hin. run_to_response Hauth. rewrite Hst, Hj. cbn.
    apply in_keys_existsb in Hin. rewrite Hin.
    destruct (existsb_key_assoc kvs "error" Hin) as (v & Hv). cbn. rewrite Hv.
    do 2 eexists. reflexivity.
Qed.

Lemma translate_strings_error_responses_witness :
  init (Some "k") None None = Ok yandex_key_only
  /\ (exists msg w,
        translate_strings bad_request_server (PList [PStr "a"]) "ru" "en" true
          (start yandex_key_only) = (Err (Exception msg), w)
        /\ (exists pre post, msg = pre ++ str_int 400 ++ post)
        /\ (exists pre post, msg = pre ++ "invalid texts" ++ post))
  /\ (exists msg w,
        translate_strings embedded_error_server (PList [PStr "a"]) "ru" "en" true
          (start yandex_key_only) = (Err (Exception msg), w)).
Proof.
  split; [reflexivity|]. split.
  - apply (proj1 (translate_strings_error_responses (Some "k") None None yandex_key_only
             {| status_code := 400; text := "invalid texts"; json := Ok (PDict []) |}
             (PList [PStr "a"]) "ru" "en" true eq_refl)).
    discriminate.
  - apply (proj2 (translate_strings_error_responses (Some "k") None None yandex_key_only
             {| status_code := 200; text := "quota exceeded";
                json := Ok (PDict [("error", PDict [("message", PStr "quota exceeded")])]) |}
             (PList [PStr "a"]) "ru" "en" true eq_refl)
             [("error", PDict [("message", PStr "quota exceeded")])]).
    + reflexivity.
    + reflexivity.
    + simpl. left. reflexivity.
Defined.

(** C8.  [translate_string] returns the first translation of the one-item
    batch, and the original text when the batch came back empty; a 200
    response with no translations gives back the original text. *)
Theorem translate_string_first_or_original (key iam folder : option string)
    (s : YandexAPITranslatorService) (resp : response) (kvs : list (string * pyval))
    (text0 : pyval) (target source : string) :
  init key iam folder = Ok s -> status_code resp = 200 -> json resp = Ok (PDict kvs) ->
  ~ In "error" (map fst kvs) ->
  (forall ts w1,
     translate_strings (fun _ => Ok resp) (PList [text0]) target source true (start s) =
       (Ok (PList ts), w1) ->
     translate_string (fun _ => Ok resp) text0 target source (start s) =
       (Ok (match ts with [] => text0 | t :: _ => t end), w1))
  /\ (assoc "translations" kvs = None \/ assoc "translations" kvs = Some (PList []) ->
      fst (translate_string (fun _ => Ok resp) text0 target source (start s)) = Ok text0).
Proof.
  intros Hinit Hst Hj Hnerr.
  assert (Hrun : forall ts w1,
     translate_strings (fun _ => Ok resp) (PList [text0]) target source true (start s) =
       (Ok (PList ts), w1) ->
     translate_string (fun _ => Ok resp) text0 target source (start s) =
       (Ok (match ts with [] => text0 | t :: _ => t end), w1)).
  { intros ts w1 E. unfold translate_string, bind. rewrite E.
    destruct ts; reflexivity. }
  split; [exact Hrun|].
  intros Htr.
  destruct (translate_strings_zero_translations key iam folder s resp kvs (PList [text0])
              target source true Hinit Hst Hj Hnerr Htr) as (w & E).
  now rewrite (Hrun [] w E).
Qed.

Lemma translate_string_first_or_original_witness :
  init (Some "k") None None = Ok yandex_key_only
  /\ (200 = 200)%Z
  /\ Ok (PDict [("translations", PList [])]) = Ok (PDict [("translations", PList [])])
  /\ ~ In "error" (map fst [("translations", PList [])])
  /\ fst (translate_string (fun _ => Ok {| status_code := 200; text := "";
                                          json := Ok (PDict [("translations", PList [])]) |})
            (PStr "hello") "ru" "en" (start yandex_key_only)) = Ok (PStr "hello").
Proof.
  split; [reflexivity|]. split; [reflexivity|]. split; [reflexivity|].
  split; [simpl; intros [H|[]]; discriminate H|].
  apply (proj2 (translate_string_first_or_original (Some "k") None None yandex_key_only
           {| status_code := 200; text := ""; json := Ok (PDict [("translations", PList [])]) |}
           [("translations", PList [])] (PStr "hello") "ru" "en"
           eq_refl eq_refl eq_refl ltac:(simpl; intros [H|[]]; discriminate H))).
  right. reflexivity.
Defined.

(** C9.  A 200 response whose JSON object has neither an ["error"] nor a
    ["translations"] key gives an empty list, not an error. *)
Theorem translate_strings_missing_translations (key iam folder : option string)
    (s : YandexAPITranslatorService) (resp : response) (kvs : list (string * pyval))
    (strings : pyval) (target source : string) (optimized : bool) :
  init key iam folder = Ok s -> status_code resp = 200 -> json resp = Ok (PDict kvs) ->
  ~ In "error" (map fst kvs) -> ~ In "translations" (map fst kvs) ->
  fst (translate_strings (fun _ => Ok resp) strings target source optimized (start s)) =
    Ok (PList []).
Proof.
  intros Hinit Hst Hj Hnerr Hntr.
  assert (Hnone : assoc "translations" kvs = None).
  { destruct (assoc "translations" kvs) eqn:E; [|reflexivity].
    exfalso. exact (Hntr (assoc_some_in _ _ _ E)). }
  destruct (translate_strings_zero_translations key iam folder s resp kvs strings
              target source optimized Hinit Hst Hj Hnerr (or_introl Hnone)) as (w & E).
  now rewrite E.
Qed.

Lemma translate_strings_missing_translations_witness :
  init (Some "k") None None = Ok yandex_key_only
  /\ fst (translate_strings (fun _ => Ok {| status_code := 200; text := "{}";
                                           json := Ok (PDict [("id", PInt 1)]) |})
            (PList [PStr "a"]) "ru" "en" true (start yandex_key_only)) = Ok (PList []).
Proof.
  split; [reflexivity|].
  apply (translate_strings_missing_translations (Some "k") None None yandex_key_only
           {| status_code := 200; text := "{}"; json := Ok (PDict [("id", PInt 1)]) |}
           [("id", PInt 1)] (PList [PStr "a"]) "ru" "en" true eq_refl eq_refl eq_refl);
    simpl; intros [H|[]]; discriminate H.
Defined.

(** C10.  [source_language] and [optimized] do not reach the request nor the
    result: two calls that differ only in them send the same requests,
    leave the same object and return the same value. *)
Theorem translate_strings_ignores_source_and_optimized (post : request -> result response)
    (strings : pyval) (target source1 source2 : string) (optimized1 optimized2 : bool)
    (w : world) :
  translate_strings post strings target source1 optimized1 w =
  translate_strings post strings target source2 optimized2 w.
Proof. reflexivity. Qed.

(** C4 (code bug).  An int is not a batch of strings, yet [translate_strings]
    posts it as ["texts"]: the request goes out before anything fails. *)
Theorem translate_strings_posts_non_iterable :
  init (Some "k") None None = Ok yandex_key_only
  /\ let '(r, w) := translate_strings bad_request_server (PInt 5) "ru" "en" true
                      (start yandex_key_only) in
     map body (sent w) = [PDict [("targetLanguageCode", PStr "ru"); ("texts", PInt 5);
                                 ("folderId", PNone)]]
     /\ request_count (obj w) = 1
     /\ exists msg, r = Err (Exception msg).
Proof. split; [reflexivity|]. vm_compute. split; [reflexivity|]. split; [reflexivity|]. eexists; reflexivity. Qed.

(** With no API key, the IAM token is used: the one request carries
    [Authorization: Bearer <token>] and the folder id in its body. *)
Lemma translate_strings_iam_bearer (post : request -> result response)
    (key : option string) (t f : string) (s : YandexAPITranslatorService)
    (strings : pyval) (target source : string) (optimized : bool) :
  configured key = None -> t <> "" -> f <> "" -> init key (Some t) (Some f) = Ok s ->
  exists req,
    sent (snd (translate_strings post strings target source optimized (start s))) = [req]
    /\ headers req = [("Content-Type", "application/json"); ("Authorization", "Bearer " ++ t)]
    /\ body req = PDict [("targetLanguageCode", PStr target); ("texts", strings);
                         ("folderId", PStr f)].
Proof.
  intros Hk Ht Hf Hinit.
  unfold init in Hinit. rewrite Hk, (configured_nonempty t Ht), (configured_nonempty f Hf)
    in Hinit. cbn in Hinit. inversion Hinit; subst s; clear Hinit.
  assert (Ha := auth_headers_iam (start {| api_url := "https://translate.api.cloud.yandex.net/translate/v2/translate";
                                           api_key := key; iam_token := Some t;
                                           folder_id := Some f; request_count := 0 |})
                  t Hk (configured_nonempty t Ht)).
  run_to_response Ha.
  destruct (post _) as [resp|e]; cbn; [|eexists; repeat split; reflexivity].
  destruct (negb _); cbn; [eexists; repeat split; reflexivity|].
  repeat (match goal with |- context [match ?x with _ => _ end] => destruct x end; cbn);
    eexists; repeat split; reflexivity.
Qed.

Lemma translate_strings_iam_bearer_witness :
  configured None = None /\ "t" <> "" /\ "f" <> ""
  /\ init None (Some "t") (Some "f") =
     Ok {| api_url := "https://translate.api.cloud.yandex.net/translate/v2/translate";
           api_key := None; iam_token := Some "t"; folder_id := Some "f"; request_count := 0 |}
  /\ exists req,
    sent (snd (translate_strings bad_request_server (PList [PStr "a"]) "ru" "en" true
                 (start {| api_url := "https://translate.api.cloud.yandex.net/translate/v2/translate";
                           api_key := None; iam_token := Some "t"; folder_id := Some "f";
                           request_count := 0 |}))) = [req]
    /\ headers req = [("Content-Type", "application/json"); ("Authorization", "Bearer " ++ "t")]
    /\ body req = PDict [("targetLanguageCode", PStr "ru"); ("texts", PList [PStr "a"]);
                         ("folderId", PStr "f")].
Proof.
  split; [reflexivity|]. split; [discriminate|]. split; [discriminate|]. split; [reflexivity|].
  apply (translate_strings_iam_bearer bad_request_server None "t" "f"); 
    [reflexivity | discriminate | discriminate | reflexivity].
Defined.

Lemma map_result_getitem_ok (items vs : list pyval) (k : string) :
  Forall2 (fun item v => getitem item k = Ok v) items vs ->
  map_result (fun item => getitem item k) items = Ok vs.
Proof. induction 1 as [|it v its vs' H _ IH]; cbn; [reflexivity | now rewrite H, IH]. Qed.

(** A 200 response whose translations are dicts with a ["text"] value gives
    those values, in the order received; the request is counted once. *)
Lemma translate_strings_success_texts (key iam folder : option string)
    (s : YandexAPITranslatorService) (resp : response) (kvs : list (string * pyval))
    (items vs : list pyval) (strings : pyval) (target source : string) (optimized : bool) :
  init key iam folder = Ok s -> status_code resp = 200 -> json resp = Ok (PDict kvs) ->
  ~ In "error" (map fst kvs) -> assoc "translations" kvs = Some (PList items) ->
  Forall2 (fun item v => getitem item "text" = Ok v) items vs ->
  exists w, translate_strings (fun _ => Ok resp) strings target source optimized (start s) =
              (Ok (PList vs), w)
            /\ request_count (obj w) = 1.
Proof.
  intros Hinit Hst Hj Hnerr Htr Hitems.
  destruct (init_auth_headers key iam folder s Hinit) as (ua & hdrs & Hauth).
  assert (Hc : request_count s = 0)
    by (unfold init in Hinit; destruct (_ && _); inversion Hinit; reflexivity).
  assert (Hex : existsb (fun kv => String.eqb (fst kv) "error") kvs = false).
  { destruct (existsb _ kvs) eqn:E; [|reflexivity].
    exfalso. apply Hnerr. now apply in_keys_existsb. }
  run_to_response Hauth. rewrite Hst, Hj. cbn. rewrite Hex. cbn. rewrite Htr. cbn.
  rewrite (map_result_getitem_ok items vs "text" Hitems).
  eexists. split; [reflexivity|]. simpl. rewrite Hc. reflexivity.
Qed.

Lemma translate_strings_success_texts_witness :
  exists w,
    translate_strings (fun _ => Ok {| status_code := 200; text := "";
        json := Ok (PDict [("translations", PList [PDict [("text", PStr "A")];
                                                  PDict [("text", PStr "B")]])]) |})
      (PList [PStr "a"; PStr "b"]) "ru" "en" true (start yandex_key_only) =
      (Ok (PList [PStr "A"; PStr "B"]), w)
    /\ request_count (obj w) = 1.
Proof.
  apply (translate_strings_success_texts (Some "k") None None yandex_key_only
           {| status_code := 200; text := "";
              json := Ok (PDict [("translations", PList [PDict [("text", PStr "A")];
                                                         PDict [("text", PStr "B")]])]) |}
           [("translations", PList [PDict [("text", PStr "A")]; PDict [("text", PStr "B")]])]
           [PDict [("text", PStr "A")]; PDict [("text", PStr "B")]]
           [PStr "A"; PStr "B"]);
    try reflexivity.
  - simpl. intros [H|[]]; discriminate H.
  - repeat constructor.
Defined.

Lemma map_result_getitem_keyerror (items : list pyval) (k : string) :
  Forall (fun item => exists kv, item = PDict kv) items ->
  Exists (fun item => getitem item k = Err (KeyError k)) items ->
  map_result (fun item => getitem item k) items = Err (KeyError k).
Proof.
  intros Hd Hex. induction Hex as [it r H|it r _ IH].
  - cbn. now rewrite H.
  - inversion Hd as [|? ? [kv ->] Hr]; subst.
    cbn. destruct (assoc k kv); [|reflexivity]. now rewrite (IH Hr).
Qed.

(** A 200 response whose translations are dicts, one of them without a
    ["text"] key, raises [KeyError('text')] after the request was counted. *)
Lemma translate_strings_missing_text (key iam folder : option string)
    (s : YandexAPITranslatorService) (resp : response) (kvs : list (string * pyval))
    (items : list pyval) (strings : pyval) (target source : string) (optimized : bool) :
  init key iam folder = Ok s -> status_code resp = 200 -> json resp = Ok (PDict kvs) ->
  ~ In "error" (map fst kvs) -> assoc "translations" kvs = Some (PList items) ->
  Forall (fun item => exists kv, item = PDict kv) items ->
  Exists (fun item => getitem item "text" = Err (KeyError "text")) items ->
  exists w, translate_strings (fun _ => Ok resp) strings target source optimized (start s) =
              (Err (KeyError "text"), w)
            /\ request_count (obj w) = 1.
Proof.
  intros Hinit Hst Hj Hnerr Htr Hd Hmiss.
  destruct (init_auth_headers key iam folder s Hinit) as (ua & hdrs & Hauth).
  assert (Hc : request_count s = 0)
    by (unfold init in Hinit; destruct (_ && _); inversion Hinit; reflexivity).
  assert (Hex : existsb (fun kv => String.eqb (fst kv) "error") kvs = false).
  { destruct (existsb _ kvs) eqn:E; [|reflexivity].
    exfalso. apply Hnerr. now apply in_keys_existsb. }
  run_to_response Hauth. rewrite Hst, Hj. cbn. rewrite Hex. cbn. rewrite Htr. cbn.
  rewrite (map_result_getitem_keyerror items "text" Hd Hmiss).
  eexists. split; [reflexivity|]. simpl. rewrite Hc. reflexivity.
Qed.

Lemma translate_strings_missing_text_witness :
  exists w,
    translate_strings (fun _ => Ok {| status_code := 200; text := "";
        json := Ok (PDict [("translations", PList [PDict [("text", PStr "A")];
                                                  PDict [("txt", PStr "B")]])]) |})
      (PList [PStr "a"; PStr "b"]) "ru" "en" true (start yandex_key_only) =
      (Err (KeyError "text"), w)
    /\ request_count (obj w) = 1.
Proof.
  apply (translate_strings_missing_text (Some "k") None None yandex_key_only
           {| status_code := 200; text := "";
              json := Ok (PDict [("translations", PList [PDict [("text", PStr "A")];
                                                         PDict [("txt", PStr "B")]])]) |}
           [("translations", PList [PDict [("text", PStr "A")]; PDict [("txt", PStr "B")]])]
           [PDict [("text", PStr "A")]; PDict [("txt", PStr "B")]]);
    try reflexivity.
  - simpl. intros [H|[]]; discriminate H.
  - repeat constructor; eexists; reflexivity.
  - apply Exists_cons_tl, Exists_cons_hd. reflexivity.
Defined.

(** Each call of [translate_strings] sends one request; it is counted when
    the server answers, whatever the answer, and not counted when the client
    raises before an answer. *)
Lemma translate_strings_request_counting (key iam folder : option string)
    (s : YandexAPITranslatorService) (strings : pyval) (target source : string)
    (optimized : bool) :
  init key iam folder = Ok s ->
  (forall resp,
     let w := snd (translate_strings (fun _ => Ok resp) strings target source optimized
                     (start s)) in
     length (sent w) = 1%nat /\ fst (get_request_count w) = Ok 1)
  /\ (forall msg,
     let w := snd (translate_strings (fun _ => Err (ClientError msg)) strings target source
                     optimized (start s)) in
     length (sent w) = 1%nat /\ fst (get_request_count w) = Ok 0).
Proof.
  intros Hinit.
  destruct (init_auth_headers key iam folder s Hinit) as (ua & hdrs & Hauth).
  assert (Hc : request_count s = 0)
    by (unfold init in Hinit; destruct (_ && _); inversion Hinit; reflexivity).
  split; intros x; cbv zeta; run_to_response Hauth.
  - destruct (negb _); cbn.
    + rewrite Hc. split; reflexivity.
    + repeat (match goal with |- context [match ?x with _ => _ end] => destruct x end; cbn);
        rewrite Hc; split; reflexivity.
  - rewrite Hc. split; reflexivity.
Qed.

Lemma translate_strings_request_counting_witness :
  init (Some "k") None None = Ok yandex_key_only
  /\ (forall resp,
     let w := snd (translate_strings (fun _ => Ok resp) (PList [PStr "a"]) "ru" "en" true
                     (start yandex_key_only)) in
     length (sent w) = 1%nat /\ fst (get_request_count w) = Ok 1)
  /\ (forall msg,
     let w := snd (translate_strings (fun _ => Err (ClientError msg)) (PList [PStr "a"])
                     "ru" "en" true (start yandex_key_only)) in
     length (sent w) = 1%nat /\ fst (get_request_count w) = Ok 0).
Proof.
  split; [reflexivity|].
  exact (translate_strings_request_counting (Some "k") None None yandex_key_only
           (PList [PStr "a"]) "ru" "en" true eq_refl).
Defined.

Lemma translate_strings_sends_any_input_witness :
  init (Some "k") None None = Ok yandex_key_only
  /\ exists req,
    sent (snd (translate_strings bad_request_server (PDict [("x", PInt 1)]) "ru" "en" false
                 (start yandex_key_only))) = [req]
    /\ body req = PDict [("targetLanguageCode", PStr "ru"); ("texts", PDict [("x", PInt 1)]);
                         ("folderId", py_of_setting None)].
Proof.
  split; [reflexivity|].
  exact (translate_strings_sends_any_input bad_request_server (Some "k") None None
           yandex_key_only (PDict [("x", PInt 1)]) "ru" "en" false eq_refl).
Defined.

End YandexAPIProofs.
